(** * 3D-3D registration command-line program (main_3d3dRegistration.cpp)

    A shallow embedding of [main] of
    [src/software/pipeline/main_3d3dRegistration.cpp]: option handling,
    the calls it makes on a [PointcloudRegistration] object, its early
    returns and its exit status.

    The registration library ([PointcloudRegistration.hpp]) and
    boost::program_options are not part of the translated file.  [main] is
    therefore written over two interfaces, [Registration] and
    [CommandLineParser], and every statement about [main] holds for all
    their implementations.  The parts of the registration engine that the
    design document describes but whose code is absent (timeline report,
    scale resolution, voxel-grid downsampling) are modelled from that
    document in modules of their own. *)

From Stdlib Require Import ZArith QArith Qround Qabs List String Ascii Bool Lia Lqa.
From Stdlib Require Import Floats.SpecFloat.
From ExtLib Require Import Structures.Monad.
Import ListNotations.
Import MonadNotation.

Local Open Scope string_scope.
Local Open Scope Z_scope.
Local Open Scope list_scope.
Local Open Scope monad_scope.

(* ===================================================================== *)
(** * Numbers *)
(* ===================================================================== *)

(** C++ [float] is IEEE-754 binary32 and [double] is binary64.  Both are
    values of [spec_float]; the format only shows in the operations, which
    take the precision and the exponent bound. *)
Definition float : Type := spec_float.
Definition double : Type := spec_float.

Definition prec32 : Z := 24.
Definition emax32 : Z := 128.

(** Conversion of an integer to binary32, rounding to nearest even. *)
Definition float_of_Z (z : Z) : float := binary_normalize prec32 emax32 z 0 false.

(** Binary32 division [x / y]. *)
Definition float_div (x y : float) : float := SFdiv prec32 emax32 x y.

Definition float_ne (x y : float) : bool := negb (SFeqb x y).
Definition float_le (x y : float) : bool := SFleb x y.

(** The literal [1.f]: 2^23 * 2^-23. *)
Definition lit_1f : float := S754_finite false 8388608 (-23).

(** The literal [0.1f]: bit pattern 0x3DCCCCCD, that is 13421773 * 2^-27. *)
Definition lit_0_1f : float := S754_finite false 13421773 (-27).

(** The rational a finite number stands for: mantissa times a power of
    two. *)
Definition Q_of_float (x : spec_float) : option Q :=
  match x with
  | S754_zero _ => Some 0%Q
  | S754_finite s m e => Some (inject_Z (cond_Zopp s (Z.pos m)) * Qpower 2 e)%Q
  | S754_infinity _ | S754_nan => None
  end.

(** [x != x], the test Eigen uses for a not-a-number coefficient. *)
Definition isNaN (x : double) : bool := negb (SFeqb x x).

(* ===================================================================== *)
(** * Eigen::Matrix4d *)
(* ===================================================================== *)

Record Vector4d : Type := mkVector4d { c0 : double; c1 : double; c2 : double; c3 : double }.

(** A fixed-size 4x4 matrix of doubles, stored by columns as Eigen does. *)
Record Matrix4d : Type := mkMatrix4d
  { col0 : Vector4d; col1 : Vector4d; col2 : Vector4d; col3 : Vector4d }.

Definition entries (v : Vector4d) : list double := [c0 v; c1 v; c2 v; c3 v].

Definition coefficients (T : Matrix4d) : list double :=
  entries (col0 T) ++ entries (col1 T) ++ entries (col2 T) ++ entries (col3 T).

(** [DenseBase::hasNaN()]: [!((derived().array() == derived().array()).all())]. *)
Definition hasNaN (T : Matrix4d) : bool :=
  negb (forallb (fun x => SFeqb x x) (coefficients T)).

(* ===================================================================== *)
(** * Process exit codes (<cstdlib>) *)
(* ===================================================================== *)

Definition EXIT_SUCCESS : Z := 0.
Definition EXIT_FAILURE : Z := 1.

(* ===================================================================== *)
(** * Command-line options (boost::program_options) *)
(* ===================================================================== *)

(** A stored option value: [po::value<std::string>], [po::value<float>]
    or [po::value<bool>]. *)
Inductive value : Type :=
| VString (s : string)
| VFloat (f : float)
| VBool (b : bool).

Inductive value_type : Type := TString | TFloat | TBool.

(** One entry of an [options_description]: the names ["long,short"], the
    type of the value, [default_value(...)] when given, [required()]. *)
Record option_description : Type := mkOption
  { long_name : string;
    short_name : string;
    semantic : value_type;
    default_value : option value;
    required : bool }.

(** Exceptions of boost::program_options that [main] catches.
    [required_option] derives from [error]; the first handler takes it. *)
Module po.
Inductive exception : Type :=
| required_option (what : string)
| error (what : string).
End po.

(** [po::variables_map]: option name to stored value; the first binding of
    a name is the one in force. *)
Definition variables_map : Type := list (string * value).

Fixpoint lookup (name : string) (vm : variables_map) : option value :=
  match vm with
  | [] => None
  | (n, v) :: rest => if String.eqb n name then Some v else lookup name rest
  end.

(** [vm.count(name)] *)
Definition count (vm : variables_map) (name : string) : nat :=
  match lookup name vm with Some _ => 1%nat | None => 0%nat end.

(** The part of [po::store] that comes after the parsed options are
    stored: every declared option that has a default and was not given
    gets its default value. *)
Fixpoint defaults (desc : list option_description) (vm : variables_map)
  : variables_map :=
  match desc with
  | [] => []
  | d :: rest =>
      match default_value d, lookup (long_name d) vm with
      | Some v, None => (long_name d, v) :: defaults rest vm
      | _, _ => defaults rest vm
      end
  end.

(** The default value the first declaration of [name] gives, if any. *)
Fixpoint declared_default (desc : list option_description) (name : string)
  : option value :=
  match desc with
  | [] => None
  | d :: rest =>
      match default_value d with
      | Some v => if String.eqb (long_name d) name then Some v
                  else declared_default rest name
      | None => declared_default rest name
      end
  end.

Definition store (parsed : variables_map) (desc : list option_description)
  : variables_map :=
  parsed ++ defaults desc parsed.

(** Two maps that agree on every option other than showTimeline. *)
Definition same_but_showTimeline (p1 p2 : variables_map) : Prop :=
  forall name : string, name <> "showTimeline" -> lookup name p1 = lookup name p2.

(** The check of [po::notify]: the first required option without a value
    raises [required_option]. *)
Fixpoint missing_required (desc : list option_description) (vm : variables_map)
  : option string :=
  match desc with
  | [] => None
  | d :: rest =>
      if required d && Nat.eqb (count vm (long_name d)) 0
      then Some (long_name d)
      else missing_required rest vm
  end.

(** [po::value<T>(&x)]: at [notify] the variable [x] receives the stored
    value of its option; without one it keeps the value it had. *)
Definition bind_string (vm : variables_map) (name : string) (x : string) : string :=
  match lookup name vm with Some (VString s) => s | _ => x end.

Definition bind_float (vm : variables_map) (name : string) (x : float) : float :=
  match lookup name vm with Some (VFloat f) => f | _ => x end.

Definition bind_bool (vm : variables_map) (name : string) (x : bool) : bool :=
  match lookup name vm with Some (VBool b) => b | _ => x end.

(** The command-line parser of boost::program_options.  It is an external
    library: a parser is any function from option descriptions and an
    argument vector to parsed options or an exception which finds no option
    and raises nothing when the argument vector holds the program name
    only. *)
Class CommandLineParser : Type :=
  { parse_command_line :
      list string -> list option_description -> po.exception + variables_map;
    parse_program_name_only :
      forall (prog : string) (desc : list option_description),
        parse_command_line [prog] desc = inr [] }.

(** The local variables of [main] that options are bound to. *)
Module Var.
Record t : Type := mk
  { alignmentMethodName : string;
    sourceFile : string;
    targetFile : string;
    outputFile : string;
    sourceMeasurement : float;
    targetMeasurement : float;
    scaleRatio : float;
    voxelSize : float;
    showTimeline : bool;
    verboseLevel : string }.

(** The same variables with another value of [showTimeline]. *)
Definition with_showTimeline (b : bool) (x : t) : t :=
  mk (alignmentMethodName x) (sourceFile x) (targetFile x) (outputFile x)
     (sourceMeasurement x) (targetMeasurement x) (scaleRatio x) (voxelSize x)
     b (verboseLevel x).
End Var.

(* ===================================================================== *)
(** * The registration library *)
(* ===================================================================== *)

(** One entry of the stage timeline: a stage name and its duration. *)
Record TimelineEntry : Type := mkEntry { stage : string; elapsed : N }.

(** The declarations [main] uses from [PointcloudRegistration.hpp] and from
    the logger.  [World] is the state the calls act on: the registration
    object together with the files it reads and writes.  Every method is a
    function of that state and returns to its caller; [main] catches
    nothing but the exceptions of the option parser. *)
Class Registration : Type :=
  { EAlignmentMethod : Type;
    GICP : EAlignmentMethod;
    EAlignmentMethod_enumToString : EAlignmentMethod -> string;
    EAlignmentMethod_stringToEnum : string -> EAlignmentMethod;
    EAlignmentMethod_information : string;
    (** [EVerboseLevel_enumToString(Logger::getDefaultVerboseLevel())] *)
    defaultVerboseLevel : string;
    World : Type;
    (** the default constructor, [PointcloudRegistration reg;] *)
    PointcloudRegistration : World -> World;
    loadSourceCloud : string -> World -> Z * World;
    loadTargetCloud : string -> World -> Z * World;
    setScaleRatio : float -> World -> World;
    setTargetMeasurement : float -> World -> World;
    setSourceMeasurement : float -> World -> World;
    setVoxelSize : float -> World -> World;
    align : EAlignmentMethod -> World -> Matrix4d * World;
    (** the entries recorded so far by the timeline recorder *)
    timeline : World -> list TimelineEntry;
    tranformAndSaveCloud : string -> Matrix4d -> string -> World -> Z * World }.

(* ===================================================================== *)
(** * Observable actions *)
(* ===================================================================== *)

(** Output streams: [ALICEVISION_COUT], [ALICEVISION_CERR],
    [ALICEVISION_LOG_INFO], [ALICEVISION_LOG_WARNING]. *)
Inductive Channel : Type := COUT | CERR | LOG_INFO | LOG_WARNING.

(** One operand of a [<<] chain. *)
Inductive Piece : Type :=
| Str (s : string)
| Description (desc : list option_description)
| Variables (vm : variables_map)
| Matrix (T : Matrix4d)
| Rotation (T : Matrix4d)
| Translation (T : Matrix4d).

(** [std::string::empty()] *)
Definition empty (s : string) : bool := Nat.eqb (String.length s) 0.

(** How a statement ends: control goes on with a value, or [main] has
    returned with a status. *)
Inductive Outcome (A : Type) : Type :=
| Continue (a : A)
| Return (status : Z).
Arguments Continue {A} a.
Arguments Return {A} status.

Section Program.

Context {R : Registration} {P : CommandLineParser}.

(** What a run does, in order: what it prints and the calls it makes on
    the registration object, each with the value the call returned. *)
Inductive Event : Type :=
| Printed (ch : Channel) (msg : list Piece)
| Constructed
| LoadedSource (file : string) (ret : Z)
| LoadedTarget (file : string) (ret : Z)
| ScaleRatioSet (val : float)
| TargetMeasurementSet (val : float)
| SourceMeasurementSet (val : float)
| VoxelSizeSet (val : float)
| Aligned (method : EAlignmentMethod) (T : Matrix4d)
| TimelineShown (report : list (string * N))
| Exported (inputFile : string) (T : Matrix4d) (outputFile : string) (ret : Z).

(** ** The monad of [main]: state, a log of events, early [return] *)

Record Machine : Type := mkMachine { world : World; events : list Event }.

Definition Run (A : Type) : Type := Machine -> Outcome A * Machine.

#[export] Instance Monad_Run : Monad Run :=
  {| ret := fun _ a m => (Continue a, m);
     bind := fun _ _ c k m =>
               match c m with
               | (Continue a, m') => k a m'
               | (Return z, m') => (Return z, m')
               end |}.

(** The statement [return z;] of [main]. *)
Definition exit {A : Type} (z : Z) : Run A := fun m => (Return z, m).

Definition record (e : Event) (m : Machine) : Machine :=
  mkMachine (world m) (events m ++ [e]).

Definition print (ch : Channel) (msg : list Piece) : Run unit :=
  fun m => (Continue tt, record (Printed ch msg) m).

(** [if (b) { c }] *)
Definition when (b : bool) (c : Run unit) : Run unit :=
  if b then c else ret tt.

(** A method that returns a value: the state changes and the call is
    logged with its result. *)
Definition call {A : Type} (f : World -> A * World) (e : A -> Event) : Run A :=
  fun m => let r := f (world m) in
           (Continue (fst r), mkMachine (snd r) (events m ++ [e (fst r)])).

(** A [void] method. *)
Definition call_void (f : World -> World) (e : Event) : Run unit :=
  fun m => (Continue tt, mkMachine (f (world m)) (events m ++ [e])).

(** ** The timeline report *)

(** Modelled from the spec: the body of
    [PointcloudRegistration::showTimeline] is missing from the sources.
    Section 4.5 gives [emit()]: an ordered report of all entries which
    leaves the recorder and the alignment result as they are. *)
Definition emit (tl : list TimelineEntry) : list (string * N) :=
  map (fun e => (stage e, elapsed e)) tl.

Definition showTimeline (w : World) : list (string * N) * World :=
  (emit (timeline w), w).

(** ** Option declarations of [main] *)

(** The local variables as they are initialised, before any option is
    bound to them. *)
Definition locals : Var.t :=
  {| Var.alignmentMethodName := EAlignmentMethod_enumToString GICP;
     Var.sourceFile := "";
     Var.targetFile := "";
     Var.outputFile := "";
     Var.sourceMeasurement := lit_1f;
     Var.targetMeasurement := lit_1f;
     Var.scaleRatio := lit_1f;
     Var.voxelSize := lit_0_1f;
     Var.showTimeline := true;
     Var.verboseLevel := defaultVerboseLevel |}.

Definition requiredParams : list option_description :=
  [ mkOption "sourceFile" "s" TString None true;
    mkOption "targetFile" "t" TString None true ].

Definition optionalParams : list option_description :=
  [ mkOption "outputFile" "o" TString None false;
    mkOption "method" "m" TString
      (Some (VString (Var.alignmentMethodName locals))) false;
    mkOption "scaleRatio" "" TFloat
      (Some (VFloat (Var.scaleRatio locals))) false;
    mkOption "sourceMeasurement" "" TFloat
      (Some (VFloat (Var.sourceMeasurement locals))) false;
    mkOption "targetMeasurement" "" TFloat
      (Some (VFloat (Var.targetMeasurement locals))) false;
    mkOption "voxelSize" "" TFloat
      (Some (VFloat (Var.voxelSize locals))) false;
    mkOption "showTimeline" "" TBool
      (Some (VBool (Var.showTimeline locals))) false ].

Definition logParams : list option_description :=
  [ mkOption "verboseLevel" "v" TString
      (Some (VString (Var.verboseLevel locals))) false ].

Definition allParams : list option_description :=
  requiredParams ++ optionalParams ++ logParams.

(** [po::notify(vm)]: the required options are checked, then every
    variable receives the value stored for its option. *)
Definition notify (vm : variables_map) : po.exception + Var.t :=
  match missing_required allParams vm with
  | Some name => inl (po.required_option name)
  | None =>
      inr {| Var.alignmentMethodName :=
               bind_string vm "method" (Var.alignmentMethodName locals);
             Var.sourceFile := bind_string vm "sourceFile" (Var.sourceFile locals);
             Var.targetFile := bind_string vm "targetFile" (Var.targetFile locals);
             Var.outputFile := bind_string vm "outputFile" (Var.outputFile locals);
             Var.sourceMeasurement :=
               bind_float vm "sourceMeasurement" (Var.sourceMeasurement locals);
             Var.targetMeasurement :=
               bind_float vm "targetMeasurement" (Var.targetMeasurement locals);
             Var.scaleRatio := bind_float vm "scaleRatio" (Var.scaleRatio locals);
             Var.voxelSize := bind_float vm "voxelSize" (Var.voxelSize locals);
             Var.showTimeline :=
               bind_bool vm "showTimeline" (Var.showTimeline locals);
             Var.verboseLevel :=
               bind_string vm "verboseLevel" (Var.verboseLevel locals) |}
  end.

(** ** [main] *)

(** The two [catch] blocks (lines 89-100). *)
Definition handler (e : po.exception) : Run Z :=
  match e with
  | po.required_option what =>
      print CERR [Str "ERROR: "; Str what] ;;
      print COUT [Str "Usage:\n\n"; Description allParams] ;;
      exit EXIT_FAILURE
  | po.error what =>
      print CERR [Str "ERROR: "; Str what] ;;
      print COUT [Str "Usage:\n\n"; Description allParams] ;;
      exit EXIT_FAILURE
  end.

(** Lines 102-158: what [main] does once the options are bound. *)
Definition registration (vm : variables_map) (x : Var.t) : Run Z :=
  print COUT [Str "Program called with the following parameters:"] ;;
  print COUT [Variables vm] ;;
  let method := EAlignmentMethod_stringToEnum (Var.alignmentMethodName x) in
  print COUT [Str "Alignment Method: "; Str (EAlignmentMethod_enumToString method)] ;;
  print COUT [Str "Create PointcloudRegistration"] ;;
  call_void PointcloudRegistration Constructed ;;
  r <- call (loadSourceCloud (Var.sourceFile x)) (LoadedSource (Var.sourceFile x)) ;;
  when (r =? EXIT_FAILURE)
    (print CERR [Str "Failed to load source cloud: "; Str (Var.sourceFile x)] ;;
     exit EXIT_FAILURE) ;;
  r <- call (loadTargetCloud (Var.targetFile x)) (LoadedTarget (Var.targetFile x)) ;;
  when (r =? EXIT_FAILURE)
    (print CERR [Str "Failed to load target cloud: "; Str (Var.targetFile x)] ;;
     exit EXIT_FAILURE) ;;
  print LOG_INFO [Str "Point clouds loaded."] ;;
  call_void (setScaleRatio (Var.scaleRatio x)) (ScaleRatioSet (Var.scaleRatio x)) ;;
  call_void (setTargetMeasurement (Var.targetMeasurement x))
            (TargetMeasurementSet (Var.targetMeasurement x)) ;;
  call_void (setSourceMeasurement (Var.sourceMeasurement x))
            (SourceMeasurementSet (Var.sourceMeasurement x)) ;;
  call_void (setVoxelSize (Var.voxelSize x)) (VoxelSizeSet (Var.voxelSize x)) ;;
  print LOG_INFO [Str "Start alignment"] ;;
  T <- call (align method) (Aligned method) ;;
  print LOG_WARNING [Str "Alignment transform estimated:\n"; Matrix T] ;;
  print LOG_WARNING [Str "Alignment transform rotation:\n"; Rotation T] ;;
  print LOG_WARNING [Str "Alignment transform translation:\n"; Translation T] ;;
  when (hasNaN T)
    (print CERR [Str "3D3DRegistration failed. Final matrix contains NaN."] ;;
     exit EXIT_FAILURE) ;;
  when (Var.showTimeline x)
    (_ <- call showTimeline TimelineShown ;; ret tt) ;;
  when (empty (Var.outputFile x))
    (print CERR [Str "Output file empty, nothing to export."] ;;
     exit EXIT_SUCCESS) ;;
  r <- call (tranformAndSaveCloud (Var.sourceFile x) T (Var.outputFile x))
            (Exported (Var.sourceFile x) T (Var.outputFile x)) ;;
  exit r.

(** Lines 77-100: parse, the usage shortcut, [notify]. *)
Definition main (argv : list string) : Run Z :=
  let argc := Z.of_nat (List.length argv) in
  match parse_command_line argv allParams with
  | inl e => handler e
  | inr parsed =>
      let vm := store parsed allParams in
      if negb (Nat.eqb (count vm "help") 0) || (argc =? 1)
      then print COUT [Description allParams] ;; exit EXIT_SUCCESS
      else match notify vm with
           | inl e => handler e
           | inr x => registration vm x
           end
  end.

(** A run of the program from a given state of the world. *)
Definition run (argv : list string) (w : World) : Outcome Z * Machine :=
  main argv (mkMachine w []).

(** The exit status is the value [main] returns. *)
Definition exit_status (argv : list string) (w : World) : Z :=
  match fst (run argv w) with
  | Continue z => z
  | Return z => z
  end.

Definition trace (argv : list string) (w : World) : list Event :=
  events (snd (run argv w)).

Definition final_world (argv : list string) (w : World) : World :=
  world (snd (run argv w)).

(** ** Reading a trace *)

Definition isAligned (e : Event) : bool :=
  match e with Aligned _ _ => true | _ => false end.

Definition isExported (e : Event) : bool :=
  match e with Exported _ _ _ _ => true | _ => false end.

Definition isTimelineShown (e : Event) : bool :=
  match e with TimelineShown _ => true | _ => false end.

(** The transforms [align] returned during a run, in order. *)
Fixpoint transforms (tr : list Event) : list Matrix4d :=
  match tr with
  | [] => []
  | Aligned _ T :: rest => T :: transforms rest
  | _ :: rest => transforms rest
  end.

(** The export calls of a run with what they returned, in order. *)
Fixpoint exports (tr : list Event) : list (string * Matrix4d * string * Z) :=
  match tr with
  | [] => []
  | Exported i T o r :: rest => (i, T, o, r) :: exports rest
  | _ :: rest => exports rest
  end.

End Program.

(* ===================================================================== *)
(** * Scale Resolver (design document, section 4.2) *)
(* ===================================================================== *)

Inductive ConfigError : Type := InvalidMeasurement | InvalidVoxelSize.

Module ScaleResolver.


(** The value of the scale ratio when none is given (section 6). *)
Definition defaultRatio : float := lit_1f.


(** Modelled from the spec: the scale resolution inside
    [PointcloudRegistration::align] is missing from the sources.
    Section 4.2: an explicit ratio that differs from the default takes
    precedence; otherwise the scale is targetMeasurement /
    sourceMeasurement, and the division fails with [InvalidMeasurement]
    on a zero or near-zero sourceMeasurement.  The document gives neither
    a threshold nor a comparison for "near-zero": the test [nearZero] is a
    parameter. *)
Definition resolveScale (nearZero : float -> bool)
                        (explicitRatio sourceMeasurement targetMeasurement : float)
  : ConfigError + float :=
  if float_ne explicitRatio defaultRatio then inr explicitRatio
  else if nearZero sourceMeasurement then inl InvalidMeasurement
  else inr (float_div targetMeasurement sourceMeasurement).



End ScaleResolver.

(* ===================================================================== *)
(** * Voxel Downsampler (design document, section 4.3) *)
(* ===================================================================== *)

Module VoxelDownsampler.

(** Coordinates are exact rationals: the document states the algorithm
    on numbers, and neither the order nor the precision of the sums of
    the missing implementation is known. *)
Record Point : Type := mkPoint { px : Q; py : Q; pz : Q }.

Definition PointCloud : Type := list Point.

(** The index of a cube of the grid. *)
Definition Voxel : Type := (Z * Z * Z)%type.

Definition voxel_eqb (a b : Voxel) : bool :=
  let '(ax, ay, az) := a in
  let '(bx, by_, bz) := b in
  (ax =? bx) && (ay =? by_) && (az =? bz).

(** Floor-divide of each coordinate by the voxel size. *)
Definition voxelOf (V : Q) (p : Point) : Voxel :=
  (Qfloor (px p / V), Qfloor (py p / V), Qfloor (pz p / V)).

(** The occupied voxels with the points that fell in each, in order of
    first occupation. *)
Definition Grid : Type := list (Voxel * list Point).

Fixpoint place (k : Voxel) (p : Point) (g : Grid) : Grid :=
  match g with
  | [] => [(k, [p])]
  | (k', ps) :: rest =>
      if voxel_eqb k k' then (k', p :: ps) :: rest
      else (k', ps) :: place k p rest
  end.


Definition bin (V : Q) (cloud : PointCloud) : Grid :=
  fold_left (fun g p => place (voxelOf V p) p g) cloud [].

Definition total (f : Point -> Q) (ps : list Point) : Q :=
  fold_right (fun p acc => f p + acc)%Q 0%Q ps.

Definition mean (f : Point -> Q) (ps : list Point) : Q :=
  (total f ps / inject_Z (Z.of_nat (List.length ps)))%Q.

Definition centroid (ps : list Point) : Point :=
  mkPoint (mean px ps) (mean py ps) (mean pz ps).

(** Modelled from the spec: the voxel-grid filter used by
    [PointcloudRegistration::align] is missing from the sources.
    Section 4.3: space is cut into cubes of edge [voxelSize], every
    point goes to the voxel given by floor-dividing its coordinates, the
    points of one voxel are replaced by their centroid, and a voxel size
    that is not positive fails with [InvalidVoxelSize]. *)
Definition downsample (cloud : PointCloud) (voxelSize : Q)
  : ConfigError + PointCloud :=
  if Qle_bool voxelSize 0 then inl InvalidVoxelSize
  else inr (map (fun cell => centroid (snd cell)) (bin voxelSize cloud)).




End VoxelDownsampler.

(* ===================================================================== *)
(** * A scripted environment for concrete runs *)
(* ===================================================================== *)

(** Test doubles of the two interfaces.  They are used to run [main] on
    explicit command lines; no statement about [main] depends on them. *)
Module Script.

(** Which files can be read and written, what the engine will return,
    and what the recorder holds. *)
Record world : Type := mkWorld
  { readable : list string;
    writable : list string;
    outcome : Matrix4d;
    created : bool;
    recorded : list TimelineEntry }.

Inductive method : Type := Plain | Generalized | PointToPlane.

Definition enumToString (m : method) : string :=
  match m with
  | Plain => "ICP"
  | Generalized => "GICP"
  | PointToPlane => "PointToPlane"
  end.

Definition stringToEnum (s : string) : method :=
  if String.eqb s "ICP" then Plain
  else if String.eqb s "PointToPlane" then PointToPlane
  else Generalized.

Definition mem (f : string) (l : list string) : bool := existsb (String.eqb f) l.

Definition stamp (name : string) (w : world) : world :=
  mkWorld (readable w) (writable w) (outcome w) (created w)
          (recorded w ++ [mkEntry name 1%N]).

Definition load (name file : string) (w : world) : Z * world :=
  if mem file (readable w) then (EXIT_SUCCESS, stamp name w)
  else (EXIT_FAILURE, w).

Definition save (inputFile : string) (T : Matrix4d) (outputFile : string)
                (w : world) : Z * world :=
  if mem inputFile (readable w) && mem outputFile (writable w)
  then (EXIT_SUCCESS, stamp "export" w)
  else (EXIT_FAILURE, w).

#[export] Instance registration : Registration :=
  {| EAlignmentMethod := method;
     GICP := Generalized;
     EAlignmentMethod_enumToString := enumToString;
     EAlignmentMethod_stringToEnum := stringToEnum;
     EAlignmentMethod_information := "ICP, GICP, PointToPlane";
     defaultVerboseLevel := "info";
     World := world;
     PointcloudRegistration :=
       fun w => mkWorld (readable w) (writable w) (outcome w) true [];
     loadSourceCloud := load "load source";
     loadTargetCloud := load "load target";
     setScaleRatio := fun _ w => w;
     setTargetMeasurement := fun _ w => w;
     setSourceMeasurement := fun _ w => w;
     setVoxelSize := fun _ w => w;
     align := fun _ w => (outcome w, stamp "align" w);
     timeline := recorded;
     tranformAndSaveCloud := save |}.

(** *** A small command-line reader: [--name value] and [-n value] *)

Definition digit (c : ascii) : option Z :=
  let n := Z.of_nat (nat_of_ascii c) in
  if (48 <=? n) && (n <=? 57) then Some (n - 48) else None.

(** Reads an unsigned decimal numeral such as [12.5]: the digits as an
    integer and the power of ten to divide it by. *)
Fixpoint numeral (s : string) (acc : Z) (scale : option Z) : option (Z * Z) :=
  match s with
  | EmptyString => Some (acc, match scale with Some k => k | None => 1 end)
  | String c rest =>
      if Ascii.eqb c "."%char then
        match scale with
        | None => numeral rest acc (Some 1)
        | Some _ => None
        end
      else
        match digit c with
        | Some d =>
            numeral rest (acc * 10 + d)
                    (match scale with Some k => Some (k * 10) | None => None end)
        | None => None
        end
  end.

Definition read (ty : value_type) (s : string) : option value :=
  match ty with
  | TString => Some (VString s)
  | TFloat =>
      match s with
      | EmptyString => None
      | _ => match numeral s 0 None with
             | Some (m, k) => Some (VFloat (float_div (float_of_Z m) (float_of_Z k)))
             | None => None
             end
      end
  | TBool =>
      if String.eqb s "true" || String.eqb s "1" then Some (VBool true)
      else if String.eqb s "false" || String.eqb s "0" then Some (VBool false)
      else None
  end.

Definition names (d : option_description) (token : string) : bool :=
  String.eqb token (String.append "--" (long_name d))
  || (negb (empty (short_name d))
      && String.eqb token (String.append "-" (short_name d))).

Fixpoint arguments (desc : list option_description) (args : list string)
  : po.exception + variables_map :=
  match args with
  | [] => inr []
  | token :: rest =>
      match find (fun d => names d token) desc with
      | None => inl (po.error (String.append "unrecognised option " token))
      | Some d =>
          match rest with
          | [] => inl (po.error (String.append "missing argument of " token))
          | text :: rest' =>
              match read (semantic d) text with
              | None => inl (po.error (String.append "invalid value of " token))
              | Some v =>
                  match arguments desc rest' with
                  | inl e => inl e
                  | inr vm =>
                      match lookup (long_name d) vm with
                      | Some _ =>
                          inl (po.error (String.append "multiple occurrences of " token))
                      | None => inr ((long_name d, v) :: vm)
                      end
                  end
              end
          end
      end
  end.

Definition parse (argv : list string) (desc : list option_description)
  : po.exception + variables_map :=
  match argv with
  | [] => inr []
  | _ :: args => arguments desc args
  end.

#[export] Instance parser : CommandLineParser :=
  {| parse_command_line := parse;
     parse_program_name_only := fun _ _ => eq_refl |}.

Definition nan : double := S754_nan.
Definition d0 : double := S754_zero false.
Definition d1 : double := S754_finite false 4503599627370496 (-52).

Definition identity : Matrix4d :=
  mkMatrix4d (mkVector4d d1 d0 d0 d0) (mkVector4d d0 d1 d0 d0)
             (mkVector4d d0 d0 d1 d0) (mkVector4d d0 d0 d0 d1).

(** The identity with one not-a-number in the translation column. *)
Definition broken : Matrix4d :=
  mkMatrix4d (mkVector4d d1 d0 d0 d0) (mkVector4d d0 d1 d0 d0)
             (mkVector4d d0 d0 d1 d0) (mkVector4d d0 nan d0 d1).

Definition disk (T : Matrix4d) : world :=
  mkWorld ["source.ply"; "target.ply"] ["out.ply"] T false [].

End Script.


(* ===================================================================== *)
(** * More ways to read a run *)
(* ===================================================================== *)

(** [e.what()] *)
Definition what (e : po.exception) : string :=
  match e with
  | po.required_option s => s
  | po.error s => s
  end.

(** Two maps that agree on every option other than [name]. *)
Definition same_but (name : string) (p1 p2 : variables_map) : Prop :=
  forall n : string, n <> name -> lookup n p1 = lookup n p2.

(** The same variables with another value of [verboseLevel]. *)
Definition with_verboseLevel (s : string) (x : Var.t) : Var.t :=
  Var.mk (Var.alignmentMethodName x) (Var.sourceFile x) (Var.targetFile x)
         (Var.outputFile x) (Var.sourceMeasurement x) (Var.targetMeasurement x)
         (Var.scaleRatio x) (Var.voxelSize x) (Var.showTimeline x) s.

Section Calls.

Context {R : Registration}.

Definition isPrinted (e : Event) : bool :=
  match e with Printed _ _ => true | _ => false end.

(** The calls a run makes on the registration object, with their
    arguments and results, in order: the trace without what is printed. *)
Definition calls (tr : list Event) : list Event :=
  filter (fun e => negb (isPrinted e)) tr.

(** The messages a run writes on one stream, in order. *)
Fixpoint written (ch : Channel) (tr : list Event) : list (list Piece) :=
  match tr with
  | [] => []
  | Printed ch' msg :: rest =>
      match ch, ch' with
      | COUT, COUT | CERR, CERR | LOG_INFO, LOG_INFO | LOG_WARNING, LOG_WARNING =>
          msg :: written ch rest
      | _, _ => written ch rest
      end
  | _ :: rest => written ch rest
  end.

End Calls.

(** A registration library whose loads return a code kept in the state, to
    run [main] on codes other than EXIT_SUCCESS and EXIT_FAILURE. *)
Module Coded.

Record world : Type := mkWorld { code : Z; outcome : Matrix4d }.

#[export] Instance registration : Registration :=
  {| EAlignmentMethod := unit;
     GICP := tt;
     EAlignmentMethod_enumToString := fun _ => "GICP";
     EAlignmentMethod_stringToEnum := fun _ => tt;
     EAlignmentMethod_information := "GICP";
     defaultVerboseLevel := "info";
     World := world;
     PointcloudRegistration := fun w => w;
     loadSourceCloud := fun _ w => (code w, w);
     loadTargetCloud := fun _ w => (code w, w);
     setScaleRatio := fun _ w => w;
     setTargetMeasurement := fun _ w => w;
     setSourceMeasurement := fun _ w => w;
     setVoxelSize := fun _ w => w;
     align := fun _ w => (outcome w, w);
     timeline := fun _ => [];
     tranformAndSaveCloud := fun _ _ _ w => (code w, w) |}.

End Coded.

(* ===================================================================== *)
(** * Properties of numbers and matrices *)
(* ===================================================================== *)

Lemma SFcompare_refl :
  forall x : float, x <> S754_nan -> SFcompare x x = Some Eq.
Proof.
  intros [s | s | | s m e] Hx; cbn.
  - reflexivity.
  - destruct s; reflexivity.
  - contradiction.
  - rewrite Z.compare_refl.
    change (Pos.compare_cont Eq m m) with (Pos.compare m m).
    rewrite Pos.compare_refl. destruct s; reflexivity.
Qed.

Lemma spec_float_eq_dec : forall a b : spec_float, {a = b} + {a <> b}.
Proof.
  decide equality;
    solve [apply Z.eq_dec | apply Pos.eq_dec | apply Bool.bool_dec].
Defined.

(** Only not-a-number differs from itself. *)
Lemma isNaN_spec : forall x : double, isNaN x = true <-> x = S754_nan.
Proof.
  intros x. unfold isNaN, SFeqb. split.
  - intros H. destruct x as [s | s | | s m e]; try reflexivity;
      rewrite SFcompare_refl in H by discriminate; discriminate H.
  - intros ->. reflexivity.
Qed.

(** [hasNaN] holds exactly when some coefficient is not-a-number. *)
Lemma hasNaN_spec :
  forall T : Matrix4d, hasNaN T = true <-> In S754_nan (coefficients T).
Proof.
  intros T. unfold hasNaN. rewrite negb_true_iff. split.
  - intros H.
    destruct (in_dec spec_float_eq_dec S754_nan (coefficients T)) as [Hin | Hout];
      [exact Hin | exfalso].
    assert (Hall : forallb (fun x => SFeqb x x) (coefficients T) = true).
    { apply forallb_forall. intros x Hx.
      destruct (SFeqb x x) eqn:E; [reflexivity | exfalso].
      apply Hout. replace S754_nan with x; [exact Hx |].
      apply isNaN_spec. unfold isNaN. rewrite E. reflexivity. }
    rewrite Hall in H. discriminate H.
  - intros Hin.
    destruct (forallb (fun x => SFeqb x x) (coefficients T)) eqn:E;
      [| reflexivity].
    rewrite forallb_forall in E. specialize (E _ Hin). discriminate E.
Qed.

(** [1.f] is the number 1 and the conversion of the integer 1. *)
Lemma lit_1f_value :
  lit_1f = float_of_Z 1 /\
  valid_binary prec32 emax32 lit_1f = true /\
  exists q : Q, Q_of_float lit_1f = Some q /\ (q == 1)%Q.
Proof.
  split; [reflexivity |]. split; [reflexivity |].
  eexists. split; reflexivity.
Qed.

(** [0.1f] is the binary32 quotient 1 / 10, within half a unit in the
    last place (2^-28) of one tenth. *)
Lemma lit_0_1f_value :
  lit_0_1f = float_div (float_of_Z 1) (float_of_Z 10) /\
  valid_binary prec32 emax32 lit_0_1f = true /\
  exists q : Q,
    Q_of_float lit_0_1f = Some q /\ (Qabs (q - (1 # 10)) <= 1 # 268435456)%Q.
Proof.
  split; [reflexivity |]. split; [reflexivity |].
  eexists. split; [reflexivity |]. vm_compute. discriminate.
Qed.

(* ===================================================================== *)
(** * Properties of [main] *)
(* ===================================================================== *)

(** Case analysis on the tests a run of [main] goes through. *)
Ltac branch :=
  match goal with
  | H : ?x = inr _ |- context [match ?x with inl _ => _ | inr _ => _ end] =>
      rewrite H
  | H : ?x = inl _ |- context [match ?x with inl _ => _ | inr _ => _ end] =>
      rewrite H
  | H : ?b = _ |- context [if ?b then _ else _] => rewrite H
  | |- context [match ?x with inl _ => _ | inr _ => _ end] => destruct x eqn:?
  | |- context [match ?x with po.required_option _ => _ | po.error _ => _ end] =>
      destruct x
  | |- context [if ?b then _ else _] => destruct b eqn:?
  end.

Ltac simpl_run := cbn -[allParams store count notify hasNaN empty Z.eqb].

Ltac run_main :=
  unfold exit_status, trace, final_world, run, main, registration, handler,
    when, call, call_void, print, exit, record, showTimeline;
  simpl_run; repeat (branch; simpl_run).

(** Membership in an explicit list of events. *)
Ltac among H :=
  cbn in H;
  repeat match type of H with
         | _ \/ _ => destruct H as [H | H]
         | False => contradiction
         end;
  try discriminate H.

(** A logged result that contradicts the test the run went through. *)
Ltac clash :=
  match goal with
  | H : _ = _ :> Event |- _ => injection H as; subst
  end;
  repeat match goal with
         | H : (?x =? ?x) = false |- _ => rewrite Z.eqb_refl in H
         | H : (_ =? EXIT_FAILURE) = false, E : _ = EXIT_FAILURE |- _ =>
             rewrite E in H
         end;
  congruence.

(** ** Facts about [variables_map] *)

Lemma lookup_app :
  forall (name : string) (vm1 vm2 : variables_map),
    lookup name (vm1 ++ vm2) =
    match lookup name vm1 with Some v => Some v | None => lookup name vm2 end.
Proof.
  intros name vm1 vm2. induction vm1 as [| [n v] vm1 IH]; cbn.
  - reflexivity.
  - destruct (String.eqb n name); [reflexivity | exact IH].
Qed.

Lemma lookup_defaults :
  forall (desc : list option_description) (vm : variables_map) (name : string),
    lookup name (defaults desc vm) =
    match lookup name vm with
    | Some _ => None
    | None => declared_default desc name
    end.
Proof.
  intros desc vm name. induction desc as [| d desc IH]; cbn.
  - destruct (lookup name vm); reflexivity.
  - destruct (default_value d) as [v |]; [| exact IH].
    destruct (lookup (long_name d) vm) eqn:Hd; cbn.
    + rewrite IH. destruct (String.eqb_spec (long_name d) name) as [E |].
      * rewrite <- E, Hd. reflexivity.
      * reflexivity.
    + destruct (String.eqb_spec (long_name d) name) as [E |].
      * rewrite <- E, Hd. reflexivity.
      * exact IH.
Qed.

(** After [store], an option holds the value given on the command line
    or else its declared default. *)
Lemma lookup_store :
  forall (parsed : variables_map) (desc : list option_description) (name : string),
    lookup name (store parsed desc) =
    match lookup name parsed with
    | Some v => Some v
    | None => declared_default desc name
    end.
Proof.
  intros parsed desc name. unfold store.
  rewrite lookup_app, lookup_defaults.
  destruct (lookup name parsed); reflexivity.
Qed.

Section MainProperties.

Context {R : Registration} {P : CommandLineParser}.

Lemma empty_spec : forall s : string, empty s = true <-> s = "".
Proof.
  intros [| c s]; split; intro H; try reflexivity; discriminate H.
Qed.

(** C1. If loading the source cloud or loading the target cloud returns
    EXIT_FAILURE, [main] returns EXIT_FAILURE, which is not zero, and
    [align] has not been called. *)
Theorem load_failure_exits_before_alignment :
  forall (argv : list string) (w : World) (file : string),
    In (LoadedSource file EXIT_FAILURE) (trace argv w) \/
    In (LoadedTarget file EXIT_FAILURE) (trace argv w) ->
    exit_status argv w = EXIT_FAILURE /\
    EXIT_FAILURE <> EXIT_SUCCESS /\
    existsb isAligned (trace argv w) = false.
Proof.
  intros argv w file.
  run_main.
  all: intros [H | H]; among H.
  all: try (repeat split; (reflexivity || discriminate)).
  all: clash.
Qed.

(** C2. If the transform returned by [align] has a not-a-number entry,
    [main] returns EXIT_FAILURE, which is not zero, and
    [tranformAndSaveCloud] is not called, whatever the command line. *)
Theorem nan_transform_fails_without_export :
  forall (argv : list string) (w : World) (m : EAlignmentMethod) (T : Matrix4d),
    In (Aligned m T) (trace argv w) ->
    hasNaN T = true ->
    exit_status argv w = EXIT_FAILURE /\
    EXIT_FAILURE <> EXIT_SUCCESS /\
    existsb isExported (trace argv w) = false.
Proof.
  intros argv w m T.
  run_main.
  all: intros H HT; among H.
  all: try (repeat split; (reflexivity || discriminate)).
  all: clash.
Qed.

(** C10. If the transform returned by [align] has a not-a-number entry,
    the timeline is not shown, whatever the value of the flag. *)
Theorem nan_transform_hides_timeline :
  forall (argv : list string) (w : World) (m : EAlignmentMethod) (T : Matrix4d),
    In (Aligned m T) (trace argv w) ->
    hasNaN T = true ->
    existsb isTimelineShown (trace argv w) = false.
Proof.
  intros argv w m T.
  run_main.
  all: intros H HT; among H.
  all: try reflexivity.
  all: clash.
Qed.

(** C3. If both clouds load (neither call returns EXIT_FAILURE), the
    transform has no not-a-number entry and the output path is the empty
    string, [tranformAndSaveCloud] is not called and [main] returns
    EXIT_SUCCESS, which is 0. *)
Theorem empty_output_skips_export :
  forall (argv : list string) (w : World) (parsed : variables_map) (x : Var.t)
         (src tgt : string) (rs rt : Z),
    parse_command_line argv allParams = inr parsed ->
    notify (store parsed allParams) = inr x ->
    In (LoadedSource src rs) (trace argv w) -> rs <> EXIT_FAILURE ->
    In (LoadedTarget tgt rt) (trace argv w) -> rt <> EXIT_FAILURE ->
    (forall m T, In (Aligned m T) (trace argv w) -> hasNaN T = false) ->
    Var.outputFile x = "" ->
    exit_status argv w = EXIT_SUCCESS /\
    EXIT_SUCCESS = 0 /\
    existsb isExported (trace argv w) = false.
Proof.
  intros argv w parsed x src tgt rs rt Hparse Hnotify Hs Hrs Ht Hrt HT Hout.
  apply empty_spec in Hout.
  revert Hs Ht HT.
  run_main.
  all: intros Hs Ht HT.
  all: try (repeat split; reflexivity).
  all: try (among Hs; fail).
  all: try (among Ht; fail).
  all: try (among Hs; injection Hs as <- <-;
            match goal with H : (_ =? _) = true |- _ => apply Z.eqb_eq in H end;
            contradiction).
  all: try (among Ht; injection Ht as <- <-;
            match goal with H : (_ =? _) = true |- _ => apply Z.eqb_eq in H end;
            contradiction).
  all: match goal with
       | H : hasNaN ?T = true |- _ =>
           rewrite (HT (EAlignmentMethod_stringToEnum (Var.alignmentMethodName x)) T)
             in H;
           [ discriminate | cbn; tauto ]
       end.
Qed.

(** C8. If the output path is not empty and the transform returned by
    [align] has no not-a-number entry, the last action of the run is the
    call of [tranformAndSaveCloud] on the source path, that transform
    and the output path, after the alignment, and [main] returns what
    the call returned: a non-zero result of the export is a non-zero exit
    status. *)
Theorem exit_status_is_export_result :
  forall (argv : list string) (w : World) (parsed : variables_map) (x : Var.t)
         (m : EAlignmentMethod) (T : Matrix4d),
    parse_command_line argv allParams = inr parsed ->
    notify (store parsed allParams) = inr x ->
    Var.outputFile x <> "" ->
    In (Aligned m T) (trace argv w) ->
    hasNaN T = false ->
    exists (ret : Z) (before : list Event),
      trace argv w =
        before ++ [Exported (Var.sourceFile x) T (Var.outputFile x) ret] /\
      In (Aligned m T) before /\
      existsb isExported before = false /\
      exit_status argv w = ret /\
      (ret <> EXIT_SUCCESS -> exit_status argv w <> EXIT_SUCCESS).
Proof.
  intros argv w parsed x m T Hparse Hnotify Hout HA HT.
  assert (Hempty : empty (Var.outputFile x) = false).
  { destruct (empty (Var.outputFile x)) eqn:E; [| reflexivity].
    apply empty_spec in E. contradiction. }
  revert HA.
  run_main.
  all: intros HA; among HA.
  all: try clash.
  all: injection HA as <- <-.
  all: match goal with
       | |- exists _ _, ?L = _ /\ _ =>
           eexists; exists (removelast L); split; [cbn; reflexivity |]
       end.
  all: repeat split; try reflexivity; try (cbn; tauto).
  all: intro H; exact H.
Qed.

(** C9. Run with the program name alone (argc = 1), [main] prints the
    option descriptions and returns EXIT_SUCCESS, which is 0, without
    touching the registration library, although sourceFile and
    targetFile are declared required and [notify] would have raised
    [required_option]. *)
Theorem bare_invocation_prints_usage :
  forall (prog : string) (w : World),
    exit_status [prog] w = EXIT_SUCCESS /\
    EXIT_SUCCESS = 0 /\
    trace [prog] w = [Printed COUT [Description allParams]] /\
    final_world [prog] w = w /\
    map required requiredParams = [true; true] /\
    notify (store [] allParams) = inl (po.required_option "sourceFile").
Proof.
  intros prog w.
  unfold exit_status, trace, final_world, run, main.
  rewrite parse_program_name_only.
  cbn. repeat split; reflexivity.
Qed.

(** C4. An option that does not occur on the command line leaves its
    variable at the default: the name of GICP for the method, 1.0 for
    the scale ratio and both measurements, 0.1 for the voxel size (as
    binary32 numbers, [1.f] and the rounding of 1/10) and true for
    showTimeline. *)
Theorem defaults_of_absent_options :
  forall (parsed : variables_map) (x : Var.t),
    notify (store parsed allParams) = inr x ->
    (lookup "method" parsed = None ->
     Var.alignmentMethodName x = EAlignmentMethod_enumToString GICP) /\
    (lookup "scaleRatio" parsed = None ->
     Var.scaleRatio x = float_of_Z 1) /\
    (lookup "sourceMeasurement" parsed = None ->
     Var.sourceMeasurement x = float_of_Z 1) /\
    (lookup "targetMeasurement" parsed = None ->
     Var.targetMeasurement x = float_of_Z 1) /\
    (lookup "voxelSize" parsed = None ->
     Var.voxelSize x = float_div (float_of_Z 1) (float_of_Z 10)) /\
    (lookup "showTimeline" parsed = None ->
     Var.showTimeline x = true).
Proof.
  intros parsed x Hnotify.
  unfold notify in Hnotify.
  destruct (missing_required allParams (store parsed allParams)); [discriminate |].
  injection Hnotify as <-.
  repeat split; intros H; cbn [Var.alignmentMethodName Var.scaleRatio
    Var.sourceMeasurement Var.targetMeasurement Var.voxelSize Var.showTimeline];
    unfold bind_string, bind_float, bind_bool;
    rewrite lookup_store, H; reflexivity.
Qed.

Lemma store_same_but_showTimeline :
  forall p1 p2 : variables_map,
    same_but_showTimeline p1 p2 ->
    same_but_showTimeline (store p1 allParams) (store p2 allParams).
Proof.
  intros p1 p2 H name Hname.
  rewrite !lookup_store, (H name Hname). reflexivity.
Qed.

(** A command line on which an option occurs has more than the program
    name. *)
Lemma option_given_argc :
  forall (argv : list string) (parsed : variables_map) (name : string) (v : value),
    parse_command_line argv allParams = inr parsed ->
    lookup name parsed = Some v ->
    (Z.of_nat (List.length argv) =? 1) = false.
Proof.
  intros [| prog [| a rest]] parsed name v Hparse Hv.
  - reflexivity.
  - rewrite parse_program_name_only in Hparse.
    injection Hparse as <-. discriminate Hv.
  - apply Z.eqb_neq. cbn [List.length]. lia.
Qed.

Lemma missing_required_allParams :
  forall vm : variables_map,
    missing_required allParams vm =
    match lookup "sourceFile" vm, lookup "targetFile" vm with
    | None, _ => Some "sourceFile"
    | Some _, None => Some "targetFile"
    | Some _, Some _ => None
    end.
Proof.
  intros vm. cbn. unfold count.
  destruct (lookup "sourceFile" vm), (lookup "targetFile" vm); reflexivity.
Qed.

Ltac other_option H :=
  rewrite <- ?(H "sourceFile"), <- ?(H "targetFile"), <- ?(H "outputFile"),
          <- ?(H "method"), <- ?(H "scaleRatio"), <- ?(H "sourceMeasurement"),
          <- ?(H "targetMeasurement"), <- ?(H "voxelSize"),
          <- ?(H "verboseLevel"), <- ?(H "help")
    by discriminate.

Lemma notify_same_but_showTimeline :
  forall (p1 p2 : variables_map) (b : bool),
    same_but_showTimeline p1 p2 ->
    lookup "showTimeline" p2 = Some (VBool b) ->
    notify (store p2 allParams) =
    match notify (store p1 allParams) with
    | inl e => inl e
    | inr x => inr (Var.with_showTimeline b x)
    end.
Proof.
  intros p1 p2 b H Hb.
  apply store_same_but_showTimeline in H.
  assert (Hs : lookup "showTimeline" (store p2 allParams) = Some (VBool b))
    by (rewrite lookup_store, Hb; reflexivity).
  unfold notify, bind_string, bind_float, bind_bool.
  rewrite !missing_required_allParams.
  other_option H. rewrite Hs.
  destruct (lookup "sourceFile" (store p1 allParams)); [| reflexivity].
  destruct (lookup "targetFile" (store p1 allParams)); reflexivity.
Qed.

(** C5. Two command lines that both give showTimeline and whose parsed
    options differ at most in its value, run from the same state, return
    the same exit status, obtain the same transform from [align], make
    the same export call and leave the same final state. *)
Theorem showTimeline_does_not_change_result :
  forall (argv1 argv2 : list string) (w : World)
         (p1 p2 : variables_map) (b1 b2 : bool),
    parse_command_line argv1 allParams = inr p1 ->
    parse_command_line argv2 allParams = inr p2 ->
    lookup "showTimeline" p1 = Some (VBool b1) ->
    lookup "showTimeline" p2 = Some (VBool b2) ->
    same_but_showTimeline p1 p2 ->
    exit_status argv1 w = exit_status argv2 w /\
    transforms (trace argv1 w) = transforms (trace argv2 w) /\
    exports (trace argv1 w) = exports (trace argv2 w) /\
    final_world argv1 w = final_world argv2 w.
Proof.
  intros argv1 argv2 w p1 p2 b1 b2 Hp1 Hp2 Hb1 Hb2 H.
  pose proof (option_given_argc _ _ _ _ Hp1 Hb1) as Hc1.
  pose proof (option_given_argc _ _ _ _ Hp2 Hb2) as Hc2.
  pose proof (notify_same_but_showTimeline p1 p2 b2 H Hb2) as Hn.
  pose proof (store_same_but_showTimeline p1 p2 H) as Hs.
  unfold exit_status, trace, final_world, run, main.
  rewrite Hp1, Hp2, Hc1, Hc2, Hn. unfold count.
  rewrite <- (Hs "help") by discriminate.
  destruct (lookup "help" (store p1 allParams)); cbn [Nat.eqb negb orb].
  { cbn. repeat split; reflexivity. }
  destruct (notify (store p1 allParams)) as [e | x].
  { destruct e; cbn; repeat split; reflexivity. }
  unfold registration, when, call, call_void, print, exit, record, showTimeline.
  simpl_run.
  repeat (branch; simpl_run).
  all: repeat split; reflexivity.
Qed.

End MainProperties.

(* ===================================================================== *)
(** * Properties of the scale resolver *)
(* ===================================================================== *)

Section ScaleResolverProperties.

Import ScaleResolver.



(** Whatever the test, a source measurement it refuses makes the
    resolution by measurements fail, while an explicit ratio resolves. *)
Lemma near_zero_source_refused :
  forall (nearZero : float -> bool) (r a b : float),
    float_ne r defaultRatio = true ->
    nearZero a = true ->
    resolveScale nearZero r lit_1f lit_1f = inr r /\
    resolveScale nearZero defaultRatio a b = inl InvalidMeasurement.
Proof.
  intros nearZero r a b Hr Ha. unfold resolveScale.
  rewrite Hr, Ha. split; reflexivity.
Qed.




End ScaleResolverProperties.

(* ===================================================================== *)
(** * Properties of the voxel downsampler *)
(* ===================================================================== *)

Section VoxelDownsamplerProperties.

Import VoxelDownsampler.

Local Open Scope Q_scope.


(** ** Floor-divide *)





(** ** Centroids *)






(** ** The grid *)











Example downsample_merges_one_voxel :
  downsample [mkPoint (1 # 10) (1 # 10) (1 # 10);
              mkPoint (3 # 10) (2 # 10) (1 # 10);
              mkPoint (12 # 10) 0 0] (1 # 2)
  = inr [mkPoint (40 # 200) (30 # 200) (20 # 200); mkPoint (12 # 10) 0 0].
Proof. reflexivity. Qed.

Example downsample_refuses_zero_voxel :
  downsample [mkPoint (1 # 10) (1 # 10) (1 # 10)] 0 = inl InvalidVoxelSize.
Proof. reflexivity. Qed.


End VoxelDownsamplerProperties.

(* ===================================================================== *)
(** * Concrete runs *)
(* ===================================================================== *)

(** Each statement above that has a premise is applied here to a run of
    [main] in the scripted environment, or to explicit numbers. *)

Ltac found := vm_compute; repeat (first [left; reflexivity | right]).

Section Runs.

#[local] Existing Instance Script.registration.
#[local] Existing Instance Script.parser.

(** The source file does not exist: the load fails and the run ends. *)
Lemma load_failure_run :
  let argv := ["prog"; "-s"; "missing.ply"; "-t"; "target.ply"] in
  let w := Script.disk Script.identity in
  In (LoadedSource "missing.ply" EXIT_FAILURE) (trace argv w) /\
  exit_status argv w = EXIT_FAILURE /\
  existsb isAligned (trace argv w) = false.
Proof.
  intros argv w.
  assert (H : In (LoadedSource "missing.ply" EXIT_FAILURE)
                 (trace argv w)) by found.
  split; [exact H |].
  destruct (load_failure_exits_before_alignment (R:=Script.registration) (P:=Script.parser)
              argv w "missing.ply" (or_introl H)) as (H1 & _ & H2).
  split; assumption.
Defined.

(** The engine returns a matrix with a not-a-number entry. *)
Lemma nan_run_fails :
  let argv := ["prog"; "-s"; "source.ply"; "-t"; "target.ply"; "-o"; "out.ply"] in
  let w := Script.disk Script.broken in
  In (Aligned Script.Generalized Script.broken) (trace argv w) /\
  hasNaN Script.broken = true /\
  exit_status argv w = EXIT_FAILURE /\
  existsb isExported (trace argv w) = false.
Proof.
  intros argv w.
  assert (H : In (Aligned Script.Generalized Script.broken)
                 (trace argv w)) by found.
  split; [exact H |]. split; [reflexivity |].
  destruct (nan_transform_fails_without_export (R:=Script.registration) (P:=Script.parser)
              argv w Script.Generalized Script.broken H eq_refl) as (H1 & _ & H2).
  split; assumption.
Defined.

Lemma nan_run_shows_no_timeline :
  let argv := ["prog"; "-s"; "source.ply"; "-t"; "target.ply";
               "--showTimeline"; "true"] in
  let w := Script.disk Script.broken in
  In (Aligned Script.Generalized Script.broken) (trace argv w) /\
  hasNaN Script.broken = true /\
  existsb isTimelineShown (trace argv w) = false.
Proof.
  intros argv w.
  assert (H : In (Aligned Script.Generalized Script.broken)
                 (trace argv w)) by found.
  split; [exact H |]. split; [reflexivity |].
  exact (nan_transform_hides_timeline (R:=Script.registration) (P:=Script.parser)
           argv w Script.Generalized Script.broken H eq_refl).
Defined.

(** No output path: the transform is computed and nothing is exported. *)
Lemma no_output_run :
  let argv := ["prog"; "-s"; "source.ply"; "-t"; "target.ply"] in
  let w := Script.disk Script.identity in
  In (LoadedSource "source.ply" EXIT_SUCCESS) (trace argv w) /\
  In (LoadedTarget "target.ply" EXIT_SUCCESS) (trace argv w) /\
  transforms (trace argv w) = [Script.identity] /\
  hasNaN Script.identity = false /\
  exit_status argv w = EXIT_SUCCESS /\
  existsb isExported (trace argv w) = false.
Proof.
  intros argv w.
  assert (Hs : In (LoadedSource "source.ply" EXIT_SUCCESS) (trace argv w)) by found.
  assert (Ht : In (LoadedTarget "target.ply" EXIT_SUCCESS) (trace argv w)) by found.
  assert (HT : forall m T, In (Aligned m T) (trace argv w) -> hasNaN T = false).
  { intros m T H. vm_compute in H.
    repeat (destruct H as [H | H]; [try discriminate H |]); [| contradiction].
    injection H as _ <-. reflexivity. }
  split; [exact Hs |]. split; [exact Ht |].
  split; [reflexivity |]. split; [reflexivity |].
  destruct (empty_output_skips_export (R:=Script.registration) (P:=Script.parser)
              argv w _ _ "source.ply" "target.ply" EXIT_SUCCESS EXIT_SUCCESS
              eq_refl eq_refl Hs ltac:(discriminate) Ht ltac:(discriminate)
              HT eq_refl) as (H1 & _ & H2).
  split; assumption.
Defined.

(** The output file cannot be written: the export returns EXIT_FAILURE
    after the alignment and that is the exit status. *)
Lemma failed_export_run :
  let argv := ["prog"; "-s"; "source.ply"; "-t"; "target.ply";
               "-o"; "readonly/out.ply"] in
  let w := Script.disk Script.identity in
  In (Aligned Script.Generalized Script.identity) (trace argv w) /\
  exports (trace argv w) =
    [("source.ply", Script.identity, "readonly/out.ply", EXIT_FAILURE)] /\
  exists (ret : Z) (before : list Event),
    trace argv w =
      before ++ [Exported "source.ply" Script.identity "readonly/out.ply" ret] /\
    In (Aligned Script.Generalized Script.identity) before /\
    existsb isExported before = false /\
    exit_status argv w = ret /\
    (ret <> EXIT_SUCCESS -> exit_status argv w <> EXIT_SUCCESS).
Proof.
  intros argv w.
  assert (H : In (Aligned Script.Generalized Script.identity) (trace argv w)) by found.
  split; [exact H |]. split; [reflexivity |].
  exact (exit_status_is_export_result (R:=Script.registration) (P:=Script.parser)
           argv w _ _ Script.Generalized Script.identity eq_refl eq_refl
           ltac:(discriminate) H eq_refl).
Defined.

(** Only the two required options are given: every other variable is at
    its default. *)
Lemma defaults_run :
  let parsed := [("sourceFile", VString "source.ply");
                 ("targetFile", VString "target.ply")] in
  parse_command_line ["prog"; "-s"; "source.ply"; "-t"; "target.ply"] allParams
    = inr parsed /\
  exists x : Var.t,
    notify (store parsed allParams) = inr x /\
    Var.alignmentMethodName x = "GICP" /\
    Var.scaleRatio x = lit_1f /\
    Var.sourceMeasurement x = lit_1f /\
    Var.targetMeasurement x = lit_1f /\
    Var.voxelSize x = lit_0_1f /\
    Var.showTimeline x = true.
Proof.
  intros parsed. split; [reflexivity |].
  eexists. split; [reflexivity |].
  destruct (defaults_of_absent_options (R:=Script.registration)
              parsed _ eq_refl) as (H1 & H2 & H3 & H4 & H5 & H6).
  exact (conj (H1 eq_refl) (conj (H2 eq_refl) (conj (H3 eq_refl)
           (conj (H4 eq_refl) (conj (H5 eq_refl) (H6 eq_refl)))))).
Defined.

(** The same command line with the timeline on and off. *)
Lemma timeline_on_off_runs :
  let argv1 := ["prog"; "-s"; "source.ply"; "-t"; "target.ply"; "-o"; "out.ply";
                "--showTimeline"; "true"] in
  let argv2 := ["prog"; "-s"; "source.ply"; "-t"; "target.ply"; "-o"; "out.ply";
                "--showTimeline"; "false"] in
  let w := Script.disk Script.identity in
  existsb isTimelineShown (trace argv1 w) = true /\
  existsb isTimelineShown (trace argv2 w) = false /\
  exit_status argv1 w = exit_status argv2 w /\
  transforms (trace argv1 w) = transforms (trace argv2 w) /\
  exports (trace argv1 w) = exports (trace argv2 w) /\
  final_world argv1 w = final_world argv2 w.
Proof.
  intros argv1 argv2 w.
  split; [reflexivity |]. split; [reflexivity |].
  apply (showTimeline_does_not_change_result (R:=Script.registration)
           (P:=Script.parser) argv1 argv2 w
           [("sourceFile", VString "source.ply"); ("targetFile", VString "target.ply");
            ("outputFile", VString "out.ply"); ("showTimeline", VBool true)]
           [("sourceFile", VString "source.ply"); ("targetFile", VString "target.ply");
            ("outputFile", VString "out.ply"); ("showTimeline", VBool false)]
           true false eq_refl eq_refl eq_refl eq_refl).
  intros name Hname. cbn [lookup].
  destruct (String.eqb_spec "showTimeline" name) as [E |]; [| reflexivity].
  contradiction (Hname (eq_sym E)).
Defined.

(** The usage shortcut looks at [argc] only: the bare program name prints
    the usage and succeeds, one option without the required ones fails. *)
Example bare_run_and_flag_alone :
  let w := Script.disk Script.identity in
  exit_status ["prog"] w = EXIT_SUCCESS /\
  exit_status ["prog"; "--showTimeline"; "false"] w = EXIT_FAILURE /\
  exit_status ["prog"; "--help"] w = EXIT_FAILURE.
Proof. repeat split; reflexivity. Qed.

End Runs.

(* ===================================================================== *)
(** * Further properties of [main] *)
(* ===================================================================== *)

Section MainFurther.

Context {R : Registration} {P : CommandLineParser}.

(** No option named help is declared: unless the parser itself yields a
    value for it, [vm.count("help")] is 0 after [store]. *)
Lemma help_is_not_declared :
  forall parsed : variables_map,
    lookup "help" parsed = None ->
    count (store parsed allParams) "help" = 0%nat.
Proof.
  intros parsed H. unfold count. rewrite lookup_store, H. reflexivity.
Qed.

Lemma bare_invocation_prints_usage_shape :
  forall (prog : string) (w : World),
    exit_status [prog] w = EXIT_SUCCESS /\
    trace [prog] w = [Printed COUT [Description allParams]].
Proof.
  intros prog w. unfold exit_status, trace, run, main.
  rewrite parse_program_name_only. cbn. split; reflexivity.
Qed.

(** X1. When the option parser raises, [main] writes the exception's
    message on the error stream and the usage on the output stream,
    returns EXIT_FAILURE and has not touched the registration library. *)
Theorem parse_exception_is_reported :
  forall (argv : list string) (w : World) (e : po.exception),
    parse_command_line argv allParams = inl e ->
    exit_status argv w = EXIT_FAILURE /\
    trace argv w =
      [Printed CERR [Str "ERROR: "; Str (what e)];
       Printed COUT [Str "Usage:\n\n"; Description allParams]] /\
    final_world argv w = w.
Proof.
  intros argv w e He.
  unfold exit_status, trace, final_world, run, main. rewrite He.
  destruct e; cbn; repeat split; reflexivity.
Qed.

(** X2. A command line with more than the program name that parses but
    gives no sourceFile or no targetFile ends the same way: [notify]
    raises [required_option], the error and the usage are written, [main]
    returns EXIT_FAILURE and the registration library is not touched. *)
Theorem missing_required_option_fails :
  forall (argv : list string) (w : World) (parsed : variables_map),
    parse_command_line argv allParams = inr parsed ->
    List.length argv <> 1%nat ->
    lookup "help" parsed = None ->
    lookup "sourceFile" parsed = None \/ lookup "targetFile" parsed = None ->
    exit_status argv w = EXIT_FAILURE /\
    (exists text : string,
       notify (store parsed allParams) = inl (po.required_option text) /\
       trace argv w =
         [Printed CERR [Str "ERROR: "; Str text];
          Printed COUT [Str "Usage:\n\n"; Description allParams]]) /\
    final_world argv w = w.
Proof.
  intros argv w parsed Hparse Hargc Hhelp Hmissing.
  assert (Hc : (Z.of_nat (List.length argv) =? 1) = false).
  { apply Z.eqb_neq. lia. }
  assert (Hn : exists text,
             notify (store parsed allParams) = inl (po.required_option text)).
  { unfold notify. rewrite missing_required_allParams, !lookup_store.
    destruct (lookup "sourceFile" parsed) eqn:Hs.
    - destruct Hmissing as [Hm | Hm]; [discriminate Hm |].
      rewrite Hm. eexists. reflexivity.
    - eexists. reflexivity. }
  destruct Hn as (text & Hnotify).
  unfold exit_status, trace, final_world, run, main.
  rewrite Hparse, (help_is_not_declared _ Hhelp), Hc, Hnotify. cbn.
  split; [reflexivity |]. split; [| reflexivity].
  exists text. split; reflexivity.
Qed.

(** X3. With a parser that yields no value for help, which is not a
    declared option, the usage alone is printed exactly when the command
    line is the bare program name: no argument makes [main] print the usage
    and stop. *)
Theorem usage_only_for_bare_invocation :
  forall (argv : list string) (w : World),
    (forall parsed, parse_command_line argv allParams = inr parsed ->
                    lookup "help" parsed = None) ->
    (In (Printed COUT [Description allParams]) (trace argv w) <->
     List.length argv = 1%nat).
Proof.
  intros argv w Hhelp. split.
  - destruct (Nat.eq_dec (List.length argv) 1) as [E | E]; [intros _; exact E |].
    assert (Hc : (Z.of_nat (List.length argv) =? 1) = false).
    { apply Z.eqb_neq. lia. }
    revert Hhelp.
    unfold trace, run, main.
    destruct (parse_command_line argv allParams) as [e | parsed]; intros Hhelp.
    + destruct e; cbn; intros H; among H.
    + rewrite (help_is_not_declared _ (Hhelp _ eq_refl)), Hc.
      cbn [Nat.eqb negb orb].
      unfold registration, handler, when, call, call_void, print, exit, record,
        showTimeline.
      simpl_run. repeat (branch; simpl_run).
      all: intros H; among H.
  - intros Hlen.
    destruct argv as [| prog [| a rest]]; try discriminate Hlen.
    destruct (bare_invocation_prints_usage_shape prog w) as [_ Htrace].
    rewrite Htrace. left. reflexivity.
Qed.

(** An event that is in an explicit trace. *)
Ltac locate := cbn; repeat (first [left; reflexivity | right]).

(** X4. In a run that reaches [align], the registration object is
    configured from the bound variables right before, in the order scale
    ratio, target measurement, source measurement, voxel size; [align] gets
    the method named by alignmentMethodName; and the transform is logged
    three times right after, before it is tested for not-a-number. *)
Theorem configuration_precedes_alignment :
  forall (argv : list string) (w : World) (parsed : variables_map) (x : Var.t)
         (m : EAlignmentMethod) (T : Matrix4d),
    parse_command_line argv allParams = inr parsed ->
    notify (store parsed allParams) = inr x ->
    In (Aligned m T) (trace argv w) ->
    m = EAlignmentMethod_stringToEnum (Var.alignmentMethodName x) /\
    exists before after : list Event,
      trace argv w =
        before ++
        [ScaleRatioSet (Var.scaleRatio x);
         TargetMeasurementSet (Var.targetMeasurement x);
         SourceMeasurementSet (Var.sourceMeasurement x);
         VoxelSizeSet (Var.voxelSize x);
         Printed LOG_INFO [Str "Start alignment"];
         Aligned m T;
         Printed LOG_WARNING [Str "Alignment transform estimated:\n"; Matrix T];
         Printed LOG_WARNING [Str "Alignment transform rotation:\n"; Rotation T];
         Printed LOG_WARNING
           [Str "Alignment transform translation:\n"; Translation T]] ++
        after /\
      calls before =
        [Constructed;
         LoadedSource (Var.sourceFile x)
           (fst (loadSourceCloud (Var.sourceFile x) (PointcloudRegistration w)));
         LoadedTarget (Var.targetFile x)
           (fst (loadTargetCloud (Var.targetFile x)
                   (snd (loadSourceCloud (Var.sourceFile x)
                           (PointcloudRegistration w)))))].
Proof.
  intros argv w parsed x m T Hparse Hnotify HA.
  revert HA. run_main.
  all: intros HA; among HA.
  all: injection HA as <- <-.
  all: split; [reflexivity |].
  all: match goal with
       | |- exists _ _, ?L = _ /\ _ => exists (firstn 8 L), (skipn 17 L)
       end.
  all: split; reflexivity.
Qed.

(** X5. The target cloud is loaded only right after a load of the source
    cloud that did not return EXIT_FAILURE. *)
Theorem target_is_loaded_after_source :
  forall (argv : list string) (w : World) (file : string) (ret : Z),
    In (LoadedTarget file ret) (trace argv w) ->
    exists (src : string) (rs : Z) (before after : list Event),
      trace argv w = before ++ [LoadedSource src rs; LoadedTarget file ret] ++ after /\
      rs <> EXIT_FAILURE.
Proof.
  intros argv w file ret. run_main.
  all: intros H; among H.
  all: injection H as <- <-.
  all: match goal with
       | |- exists _ _ _ _, ?L = _ /\ _ =>
           eexists; eexists; exists (firstn 5 L), (skipn 7 L)
       end.
  all: split; [reflexivity | apply Z.eqb_neq; assumption].
Qed.

(** X6. [align] is called exactly in the runs in which the target load
    returned something other than EXIT_FAILURE: any other value of a load,
    zero or not, lets the run go on. *)
Theorem aligned_iff_target_loaded :
  forall (argv : list string) (w : World),
    existsb isAligned (trace argv w) = true <->
    exists (file : string) (ret : Z),
      In (LoadedTarget file ret) (trace argv w) /\ ret <> EXIT_FAILURE.
Proof.
  intros argv w. run_main.
  all: split; [intros H; try discriminate H | intros (file & ret & H & Hret)].
  all: try reflexivity.
  all: try (eexists; eexists; split; [locate | apply Z.eqb_neq; assumption]).
  all: among H; injection H as <- <-.
  all: match goal with
       | E : (_ =? EXIT_FAILURE) = true |- _ => apply Z.eqb_eq in E; contradiction
       end.
Qed.

(** X7. [reg.showTimeline()] is called exactly when the flag is true and
    [align] returned a transform without a not-a-number entry. *)
Theorem timeline_shown_iff :
  forall (argv : list string) (w : World) (parsed : variables_map) (x : Var.t),
    parse_command_line argv allParams = inr parsed ->
    notify (store parsed allParams) = inr x ->
    (existsb isTimelineShown (trace argv w) = true <->
     Var.showTimeline x = true /\
     exists (m : EAlignmentMethod) (T : Matrix4d),
       In (Aligned m T) (trace argv w) /\ hasNaN T = false).
Proof.
  intros argv w parsed x Hparse Hnotify. run_main.
  all: split; [intros H; try discriminate H | intros (Hflag & m & T & H & HT)].
  all: try reflexivity.
  all: try discriminate Hflag.
  all: try (split; [reflexivity |]; eexists; eexists; split; [locate | assumption]).
  all: among H; injection H as <- <-; congruence.
Qed.

(** X9. [main] returns EXIT_SUCCESS only after printing the usage alone or
    after [align] returned a transform without a not-a-number entry. *)
Theorem success_means_usage_or_transform :
  forall (argv : list string) (w : World),
    exit_status argv w = EXIT_SUCCESS ->
    In (Printed COUT [Description allParams]) (trace argv w) \/
    exists (m : EAlignmentMethod) (T : Matrix4d),
      In (Aligned m T) (trace argv w) /\ hasNaN T = false.
Proof.
  intros argv w. run_main.
  all: intros H; try discriminate H.
  all: try (left; locate; fail).
  all: right; eexists; eexists; split; [locate | assumption].
Qed.

(** X10. A failure of [main] itself is never silent: when the exit status
    is not EXIT_SUCCESS and no export was attempted, a message was written
    on the error stream. *)
Theorem failure_is_reported :
  forall (argv : list string) (w : World),
    exit_status argv w <> EXIT_SUCCESS ->
    existsb isExported (trace argv w) = false ->
    written CERR (trace argv w) <> [].
Proof.
  intros argv w. run_main.
  all: intros H Hx; try discriminate Hx; try (contradiction H; reflexivity).
  all: cbn; discriminate.
Qed.

(** A value given on the command line is the value of the variable. *)
Lemma given_options_are_bound :
  forall (parsed : variables_map) (x : Var.t),
    notify (store parsed allParams) = inr x ->
    (forall s, lookup "sourceFile" parsed = Some (VString s) -> Var.sourceFile x = s) /\
    (forall s, lookup "targetFile" parsed = Some (VString s) -> Var.targetFile x = s) /\
    (forall s, lookup "outputFile" parsed = Some (VString s) -> Var.outputFile x = s) /\
    (forall s, lookup "method" parsed = Some (VString s) ->
               Var.alignmentMethodName x = s) /\
    (forall f, lookup "scaleRatio" parsed = Some (VFloat f) -> Var.scaleRatio x = f) /\
    (forall f, lookup "sourceMeasurement" parsed = Some (VFloat f) ->
               Var.sourceMeasurement x = f) /\
    (forall f, lookup "targetMeasurement" parsed = Some (VFloat f) ->
               Var.targetMeasurement x = f) /\
    (forall f, lookup "voxelSize" parsed = Some (VFloat f) -> Var.voxelSize x = f) /\
    (forall b, lookup "showTimeline" parsed = Some (VBool b) -> Var.showTimeline x = b).
Proof.
  intros parsed x Hnotify.
  unfold notify in Hnotify.
  destruct (missing_required allParams (store parsed allParams)); [discriminate |].
  injection Hnotify as <-.
  repeat split; intros v H;
    cbn [Var.sourceFile Var.targetFile Var.outputFile Var.alignmentMethodName
         Var.scaleRatio Var.sourceMeasurement Var.targetMeasurement Var.voxelSize
         Var.showTimeline];
    unfold bind_string, bind_float, bind_bool;
    rewrite lookup_store, H; reflexivity.
Qed.

(** X11. What is given on the command line is what the registration
    library receives: in a run that reaches [align], the paths given for
    sourceFile and targetFile are the ones loaded, the numbers given for
    scaleRatio, targetMeasurement, sourceMeasurement and voxelSize are the
    arguments of the four setters, and the name given for method selects
    the algorithm. *)
Theorem given_values_reach_the_library :
  forall (argv : list string) (w : World) (parsed : variables_map)
         (m : EAlignmentMethod) (T : Matrix4d),
    parse_command_line argv allParams = inr parsed ->
    In (Aligned m T) (trace argv w) ->
    (forall s, lookup "sourceFile" parsed = Some (VString s) ->
               exists r, In (LoadedSource s r) (trace argv w)) /\
    (forall s, lookup "targetFile" parsed = Some (VString s) ->
               exists r, In (LoadedTarget s r) (trace argv w)) /\
    (forall s, lookup "method" parsed = Some (VString s) ->
               m = EAlignmentMethod_stringToEnum s) /\
    (forall f, lookup "scaleRatio" parsed = Some (VFloat f) ->
               In (ScaleRatioSet f) (trace argv w)) /\
    (forall f, lookup "targetMeasurement" parsed = Some (VFloat f) ->
               In (TargetMeasurementSet f) (trace argv w)) /\
    (forall f, lookup "sourceMeasurement" parsed = Some (VFloat f) ->
               In (SourceMeasurementSet f) (trace argv w)) /\
    (forall f, lookup "voxelSize" parsed = Some (VFloat f) ->
               In (VoxelSizeSet f) (trace argv w)).
Proof.
  intros argv w parsed m T Hparse HA.
  destruct (notify (store parsed allParams)) as [e | x] eqn:Hnotify.
  { exfalso. revert HA. run_main. all: intros HA; among HA. }
  destruct (given_options_are_bound parsed x Hnotify)
    as (Hs & Ht & _ & Hm & Hr & Hsm & Htm & Hv & _).
  revert HA. run_main.
  all: intros HA; among HA.
  all: injection HA as <- <-.
  all: split; [intros v H; rewrite <- (Hs v H); eexists; locate |].
  all: split; [intros v H; rewrite <- (Ht v H); eexists; locate |].
  all: split; [intros v H; rewrite <- (Hm v H); reflexivity |].
  all: split; [intros v H; rewrite <- (Hr v H); locate |].
  all: split; [intros v H; rewrite <- (Htm v H); locate |].
  all: split; [intros v H; rewrite <- (Hsm v H); locate |].
  all: intros v H; rewrite <- (Hv v H); locate.
Qed.

Lemma store_same_but :
  forall (name : string) (p1 p2 : variables_map),
    same_but name p1 p2 ->
    same_but name (store p1 allParams) (store p2 allParams).
Proof.
  intros name p1 p2 H n Hn.
  rewrite !lookup_store, (H n Hn). reflexivity.
Qed.

Lemma notify_same_but_verboseLevel :
  forall p1 p2 : variables_map,
    same_but "verboseLevel" p1 p2 ->
    exists s : string,
      notify (store p2 allParams) =
      match notify (store p1 allParams) with
      | inl e => inl e
      | inr x => inr (with_verboseLevel s x)
      end.
Proof.
  intros p1 p2 H.
  apply store_same_but in H.
  exists (bind_string (store p2 allParams) "verboseLevel" (Var.verboseLevel locals)).
  unfold notify.
  rewrite !missing_required_allParams.
  unfold bind_float, bind_bool, bind_string.
  rewrite <- ?(H "sourceFile"), <- ?(H "targetFile"), <- ?(H "outputFile"),
          <- ?(H "method"), <- ?(H "scaleRatio"), <- ?(H "sourceMeasurement"),
          <- ?(H "targetMeasurement"), <- ?(H "voxelSize"), <- ?(H "showTimeline")
    by discriminate.
  destruct (lookup "sourceFile" (store p1 allParams)); [| reflexivity].
  destruct (lookup "targetFile" (store p1 allParams)); reflexivity.
Qed.

(** X8. The verbosity level is accepted and then ignored: two command
    lines whose options differ at most in verboseLevel, both bare or
    neither, run from the same state, make the same calls on the
    registration library with the same results, write the same error
    messages, return the same exit status and end in the same state. *)
Theorem verboseLevel_is_ignored :
  forall (argv1 argv2 : list string) (w : World) (p1 p2 : variables_map),
    parse_command_line argv1 allParams = inr p1 ->
    parse_command_line argv2 allParams = inr p2 ->
    same_but "verboseLevel" p1 p2 ->
    (List.length argv1 = 1%nat <-> List.length argv2 = 1%nat) ->
    exit_status argv1 w = exit_status argv2 w /\
    calls (trace argv1 w) = calls (trace argv2 w) /\
    written CERR (trace argv1 w) = written CERR (trace argv2 w) /\
    final_world argv1 w = final_world argv2 w.
Proof.
  intros argv1 argv2 w p1 p2 Hp1 Hp2 H Hlen.
  assert (Hc : (Z.of_nat (List.length argv1) =? 1) =
               (Z.of_nat (List.length argv2) =? 1)).
  { destruct (Z.eqb_spec (Z.of_nat (List.length argv1)) 1) as [E1 | E1];
      destruct (Z.eqb_spec (Z.of_nat (List.length argv2)) 1) as [E2 | E2];
      try reflexivity; exfalso; lia. }
  destruct (notify_same_but_verboseLevel p1 p2 H) as [s Hn].
  pose proof (store_same_but _ p1 p2 H) as Hs.
  unfold exit_status, trace, final_world, run, main.
  rewrite Hp1, Hp2, Hc, Hn. unfold count.
  rewrite <- (Hs "help") by discriminate.
  destruct (negb (match lookup "help" (store p1 allParams) with
                  | Some _ => 1%nat
                  | None => 0%nat
                  end =? 0)%nat
            || (Z.of_nat (List.length argv2) =? 1)).
  { cbn. repeat split; reflexivity. }
  destruct (notify (store p1 allParams)) as [e | x].
  { destruct e; cbn; repeat split; reflexivity. }
  unfold registration, when, call, call_void, print, exit, record, showTimeline.
  simpl_run.
  repeat (branch; simpl_run).
  all: repeat split; reflexivity.
Qed.

(** X12. [tranformAndSaveCloud] is only ever called on a transform that
    [align] returned and that has no not-a-number entry, with an output
    path that is not empty, as the last action of the run; what it returns
    is the exit status. *)
Theorem export_only_of_sound_transform :
  forall (argv : list string) (w : World)
         (inputFile : string) (T : Matrix4d) (outputFile : string) (ret : Z),
    In (Exported inputFile T outputFile ret) (trace argv w) ->
    hasNaN T = false /\
    outputFile <> "" /\
    (exists m : EAlignmentMethod, In (Aligned m T) (trace argv w)) /\
    (exists src : Z, In (LoadedSource inputFile src) (trace argv w)) /\
    exports (trace argv w) = [(inputFile, T, outputFile, ret)] /\
    exit_status argv w = ret.
Proof.
  intros argv w inputFile T outputFile ret. run_main.
  all: intros H; among H.
  all: injection H as <- <- <- <-.
  all: split; [assumption |].
  all: split;
       [intros E; apply empty_spec in E; congruence |].
  all: split; [eexists; locate |].
  all: split; [eexists; locate |].
  all: split; reflexivity.
Qed.

(** X13. A failed load is reported with the path of the file: the only
    message on the error stream is "Failed to load source cloud: " or
    "Failed to load target cloud: " followed by the path handed to the
    load. *)
Theorem load_failure_names_the_file :
  forall (argv : list string) (w : World) (file : string),
    (In (LoadedSource file EXIT_FAILURE) (trace argv w) ->
     written CERR (trace argv w) =
       [[Str "Failed to load source cloud: "; Str file]]) /\
    (In (LoadedTarget file EXIT_FAILURE) (trace argv w) ->
     written CERR (trace argv w) =
       [[Str "Failed to load target cloud: "; Str file]]).
Proof.
  intros argv w file. run_main.
  all: split; intros H; among H.
  all: try (injection H as <-; reflexivity).
  all: clash.
Qed.

(** X14. Unless the export is attempted, the exit status is EXIT_SUCCESS
    or EXIT_FAILURE. *)
Theorem exit_status_without_export :
  forall (argv : list string) (w : World),
    existsb isExported (trace argv w) = false ->
    exit_status argv w = EXIT_SUCCESS \/ exit_status argv w = EXIT_FAILURE.
Proof.
  intros argv w. run_main.
  all: intros H; try discriminate H.
  all: first [left; reflexivity | right; reflexivity].
Qed.

End MainFurther.

(* ===================================================================== *)
(** * Further concrete runs *)
(* ===================================================================== *)

Section MoreRuns.

#[local] Existing Instance Script.registration.
#[local] Existing Instance Script.parser.

(** An option that is not declared. *)
Lemma unknown_option_run :
  let argv := ["prog"; "--bogus"; "1"] in
  let w := Script.disk Script.identity in
  parse_command_line argv allParams = inl (po.error "unrecognised option --bogus") /\
  exit_status argv w = EXIT_FAILURE /\
  trace argv w =
    [Printed CERR [Str "ERROR: "; Str "unrecognised option --bogus"];
     Printed COUT [Str "Usage:\n\n"; Description allParams]] /\
  final_world argv w = w.
Proof.
  intros argv w. split; [reflexivity |].
  exact (parse_exception_is_reported (R:=Script.registration) (P:=Script.parser)
           argv w (po.error "unrecognised option --bogus") eq_refl).
Defined.

(** The target file is not given. *)
Lemma no_target_run :
  let argv := ["prog"; "-s"; "source.ply"] in
  let w := Script.disk Script.identity in
  exit_status argv w = EXIT_FAILURE /\
  (exists text : string,
     notify (store [("sourceFile", VString "source.ply")] allParams) =
       inl (po.required_option text) /\
     trace argv w =
       [Printed CERR [Str "ERROR: "; Str text];
        Printed COUT [Str "Usage:\n\n"; Description allParams]]) /\
  final_world argv w = w.
Proof.
  intros argv w.
  exact (missing_required_option_fails (R:=Script.registration) (P:=Script.parser)
           argv w [("sourceFile", VString "source.ply")] eq_refl
           ltac:(discriminate) eq_refl (or_intror eq_refl)).
Defined.

(** A full command line does not print the usage alone. *)
Lemma full_command_line_is_not_usage :
  let argv := ["prog"; "-s"; "source.ply"; "-t"; "target.ply"] in
  let w := Script.disk Script.identity in
  ~ In (Printed COUT [Description allParams]) (trace argv w).
Proof.
  intros argv w Hin.
  apply (usage_only_for_bare_invocation (R:=Script.registration)
           (P:=Script.parser) argv w) in Hin.
  - discriminate Hin.
  - intros parsed Hp. vm_compute in Hp. injection Hp as Hp. subst parsed.
    reflexivity.
Defined.

(** A run with explicit numbers and a method name. *)
Lemma configured_run :
  let argv := ["prog"; "-s"; "source.ply"; "-t"; "target.ply";
               "--voxelSize"; "0.25"; "--scaleRatio"; "2"; "-m"; "ICP"] in
  let w := Script.disk Script.identity in
  In (Aligned Script.Plain Script.identity) (trace argv w) /\
  Script.Plain = EAlignmentMethod_stringToEnum "ICP" /\
  (exists r, In (LoadedSource "source.ply" r) (trace argv w)) /\
  In (ScaleRatioSet (float_of_Z 2)) (trace argv w) /\
  In (VoxelSizeSet (S754_finite false 8388608 (-25))) (trace argv w).
Proof.
  intros argv w.
  assert (H : In (Aligned Script.Plain Script.identity) (trace argv w)) by found.
  destruct (given_values_reach_the_library (R:=Script.registration)
              (P:=Script.parser) argv w
              [("sourceFile", VString "source.ply");
               ("targetFile", VString "target.ply");
               ("voxelSize", VFloat (S754_finite false 8388608 (-25)));
               ("scaleRatio", VFloat (float_of_Z 2));
               ("method", VString "ICP")]
              Script.Plain Script.identity eq_refl H)
    as (Hs & _ & Hm & Hr & _ & _ & Hv).
  exact (conj H (conj (Hm "ICP" eq_refl) (conj (Hs "source.ply" eq_refl)
           (conj (Hr _ eq_refl) (Hv _ eq_refl))))).
Defined.

(** The same run: the configuration comes right before the alignment. *)
Lemma configuration_run :
  let argv := ["prog"; "-s"; "source.ply"; "-t"; "target.ply";
               "--voxelSize"; "0.25"; "--scaleRatio"; "2"; "-m"; "ICP"] in
  let w := Script.disk Script.identity in
  In (Aligned Script.Plain Script.identity) (trace argv w) /\
  exists before after : list Event,
    trace argv w =
      before ++
      [ScaleRatioSet (float_of_Z 2);
       TargetMeasurementSet lit_1f;
       SourceMeasurementSet lit_1f;
       VoxelSizeSet (S754_finite false 8388608 (-25));
       Printed LOG_INFO [Str "Start alignment"];
       Aligned Script.Plain Script.identity;
       Printed LOG_WARNING
         [Str "Alignment transform estimated:\n"; Matrix Script.identity];
       Printed LOG_WARNING
         [Str "Alignment transform rotation:\n"; Rotation Script.identity];
       Printed LOG_WARNING
         [Str "Alignment transform translation:\n"; Translation Script.identity]] ++
      after /\
    calls before =
      [Constructed; LoadedSource "source.ply" EXIT_SUCCESS;
       LoadedTarget "target.ply" EXIT_SUCCESS].
Proof.
  intros argv w.
  assert (H : In (Aligned Script.Plain Script.identity) (trace argv w)) by found.
  split; [exact H |].
  exact (proj2 (configuration_precedes_alignment (R:=Script.registration)
                  (P:=Script.parser) argv w _ _ Script.Plain Script.identity
                  eq_refl eq_refl H)).
Defined.

(** The target is loaded right after the source. *)
Lemma loads_in_order_run :
  let argv := ["prog"; "-s"; "source.ply"; "-t"; "target.ply"] in
  let w := Script.disk Script.identity in
  In (LoadedTarget "target.ply" EXIT_SUCCESS) (trace argv w) /\
  exists (src : string) (rs : Z) (before after : list Event),
    trace argv w =
      before ++ [LoadedSource src rs; LoadedTarget "target.ply" EXIT_SUCCESS] ++ after /\
    rs <> EXIT_FAILURE.
Proof.
  intros argv w.
  assert (H : In (LoadedTarget "target.ply" EXIT_SUCCESS) (trace argv w)) by found.
  split; [exact H |].
  exact (target_is_loaded_after_source (R:=Script.registration) (P:=Script.parser)
           argv w "target.ply" EXIT_SUCCESS H).
Defined.

(** The timeline is shown by default when the transform is sound. *)
Lemma timeline_run :
  let argv := ["prog"; "-s"; "source.ply"; "-t"; "target.ply"] in
  let w := Script.disk Script.identity in
  existsb isTimelineShown (trace argv w) = true /\
  exists (m : EAlignmentMethod) (T : Matrix4d),
    In (Aligned m T) (trace argv w) /\ hasNaN T = false.
Proof.
  intros argv w. split; [reflexivity |].
  exact (proj2 (proj1 (timeline_shown_iff (R:=Script.registration)
                         (P:=Script.parser) argv w _ _ eq_refl eq_refl)
                      eq_refl)).
Defined.

(** Two verbosity levels. *)
Lemma verbosity_runs :
  let argv1 := ["prog"; "-s"; "source.ply"; "-t"; "target.ply"; "-v"; "debug"] in
  let argv2 := ["prog"; "-s"; "source.ply"; "-t"; "target.ply"; "-v"; "trace"] in
  let w := Script.disk Script.identity in
  exit_status argv1 w = exit_status argv2 w /\
  calls (trace argv1 w) = calls (trace argv2 w) /\
  written CERR (trace argv1 w) = written CERR (trace argv2 w) /\
  final_world argv1 w = final_world argv2 w.
Proof.
  intros argv1 argv2 w.
  apply (verboseLevel_is_ignored (R:=Script.registration) (P:=Script.parser)
           argv1 argv2 w
           [("sourceFile", VString "source.ply"); ("targetFile", VString "target.ply");
            ("verboseLevel", VString "debug")]
           [("sourceFile", VString "source.ply"); ("targetFile", VString "target.ply");
            ("verboseLevel", VString "trace")]
           eq_refl eq_refl).
  - intros n Hn. cbn [lookup].
    destruct (String.eqb_spec "verboseLevel" n) as [E |]; [| reflexivity].
    contradiction (Hn (eq_sym E)).
  - split; intros H; discriminate H.
Defined.

(** A successful run has a sound transform. *)
Lemma successful_run :
  let argv := ["prog"; "-s"; "source.ply"; "-t"; "target.ply"; "-o"; "out.ply"] in
  let w := Script.disk Script.identity in
  exit_status argv w = EXIT_SUCCESS /\
  (In (Printed COUT [Description allParams]) (trace argv w) \/
   exists (m : EAlignmentMethod) (T : Matrix4d),
     In (Aligned m T) (trace argv w) /\ hasNaN T = false).
Proof.
  intros argv w. split; [reflexivity |].
  exact (success_means_usage_or_transform (R:=Script.registration)
           (P:=Script.parser) argv w eq_refl).
Defined.

(** A failed load is reported on the error stream. *)
Lemma reported_failure_run :
  let argv := ["prog"; "-s"; "source.ply"; "-t"; "missing.ply"] in
  let w := Script.disk Script.identity in
  exit_status argv w = EXIT_FAILURE /\
  written CERR (trace argv w) <> [].
Proof.
  intros argv w. split; [reflexivity |].
  exact (failure_is_reported (R:=Script.registration) (P:=Script.parser)
           argv w ltac:(discriminate) eq_refl).
Defined.

(** An export that succeeds. *)
Lemma export_run :
  let argv := ["prog"; "-s"; "source.ply"; "-t"; "target.ply"; "-o"; "out.ply"] in
  let w := Script.disk Script.identity in
  In (Exported "source.ply" Script.identity "out.ply" EXIT_SUCCESS) (trace argv w) /\
  hasNaN Script.identity = false /\
  "out.ply" <> "" /\
  (exists m : EAlignmentMethod, In (Aligned m Script.identity) (trace argv w)) /\
  (exists src : Z, In (LoadedSource "source.ply" src) (trace argv w)) /\
  exports (trace argv w) = [("source.ply", Script.identity, "out.ply", EXIT_SUCCESS)] /\
  exit_status argv w = EXIT_SUCCESS.
Proof.
  intros argv w.
  assert (H : In (Exported "source.ply" Script.identity "out.ply" EXIT_SUCCESS)
                 (trace argv w)) by found.
  split; [exact H |].
  exact (export_only_of_sound_transform (R:=Script.registration)
           (P:=Script.parser) argv w "source.ply" Script.identity "out.ply"
           EXIT_SUCCESS H).
Defined.

(** The message of a failed source load. *)
Lemma named_failure_run :
  let argv := ["prog"; "-s"; "missing.ply"; "-t"; "target.ply"] in
  let w := Script.disk Script.identity in
  In (LoadedSource "missing.ply" EXIT_FAILURE) (trace argv w) /\
  written CERR (trace argv w) =
    [[Str "Failed to load source cloud: "; Str "missing.ply"]].
Proof.
  intros argv w.
  assert (H : In (LoadedSource "missing.ply" EXIT_FAILURE) (trace argv w)) by found.
  split; [exact H |].
  exact (proj1 (load_failure_names_the_file (R:=Script.registration)
                  (P:=Script.parser) argv w "missing.ply") H).
Defined.

(** A run that stops before the export. *)
Lemma status_without_export_run :
  let argv := ["prog"; "-s"; "missing.ply"; "-t"; "target.ply"] in
  let w := Script.disk Script.identity in
  existsb isExported (trace argv w) = false /\
  (exit_status argv w = EXIT_SUCCESS \/ exit_status argv w = EXIT_FAILURE).
Proof.
  intros argv w. split; [reflexivity |].
  exact (exit_status_without_export (R:=Script.registration) (P:=Script.parser)
           argv w eq_refl).
Defined.

End MoreRuns.

Section CodedRuns.

#[local] Existing Instance Coded.registration.
#[local] Existing Instance Script.parser.

(** Loads that return -1 are not failures for [main]: the clouds are
    aligned, and the -1 of the export becomes the exit status. *)
Example minus_one_is_not_a_load_failure :
  let argv := ["prog"; "-s"; "source.ply"; "-t"; "target.ply"; "-o"; "out.ply"] in
  let w := Coded.mkWorld (-1) Script.identity in
  In (LoadedSource "source.ply" (-1)) (trace argv w) /\
  existsb isAligned (trace argv w) = true /\
  exit_status argv w = -1.
Proof.
  intros argv w. split; [found | split; reflexivity].
Qed.

End CodedRuns.
